(** * Gobackhomee SDK: the client's request dispatch, its option handling and
      the content-addressing model of deployments.

    The Go packages [types] and [client] are embedded shallowly: structs are
    records, a pointer that may be nil is an [option], an [Option] (a Go
    function that mutates the client it is given) is a function on [Client],
    and the calls the client makes into the Go standard library
    (encoding/json, net/http) go through the [Platform] interface, so that
    every statement below holds for any behaviour of the encoder, the
    transport and the server. *)

From Stdlib Require Import ZArith List Sorted.
From Stdlib.Strings Require Import String Ascii Byte.
From stdpp Require Import base option list strings gmap.

Set Warnings "-register-all".

Local Open Scope string_scope.
Local Open Scope Z_scope.

(** ** Go values that travel as [interface{}] or [error] *)

Module go.

(** A dynamic Go value, as far as the client sees one: the shapes
    encoding/json stores in an [interface{}], the [map[string]string]
    bodies the facade builds, and a channel, which has no JSON form. *)
Inductive any :=
| Bool (b : bool)
| Float64 (bits : Z)
| String (s : string)
| Slice (elems : list any)
| Map (fields : gmap string any)
| StringMap (fields : gmap string string)
| Chan.

(** An [error] value: one made by a library ([errors.New]) or one wrapped
    by [fmt.Errorf("<prefix>%w", err)]. *)
Inductive error :=
| Err (msg : string)
| Errorf (prefix : string) (wrapped : error).

(** Go's [(T, error)] result pair with exactly one side set. *)
Inductive result (T : Type) :=
| Ok (v : T)
| Fail (err : error).
Arguments Ok {T} v.
Arguments Fail {T} err.

Definition bytes := list byte.

(** IEEE-754 single precision, kept as its 32-bit pattern. *)
Definition float32 := Z.

End go.

Module time.
(** [time.Duration] is an int64 count of nanoseconds; [time.Time] is kept
    as nanoseconds since the Unix epoch. *)
Definition Duration := Z.
Definition Time := Z.
Definition Nanosecond : Duration := 1.
Definition Microsecond : Duration := 1000 * Nanosecond.
Definition Millisecond : Duration := 1000 * Microsecond.
Definition Second : Duration := 1000 * Millisecond.
(** The zero [time.Time]: January 1 of year 1, 00:00 UTC. *)
Definition Zero : Time := -62135596800 * Second.
End time.

(** ** Package types *)

Module types.

Module Identity.
Record t := mk {
  ID : string;
  WalletAddress : string;
  Chain : string;
  PublicKey : string;
  Email : string;
  Metadata : gmap string go.any;
  CreatedAt : time.Time;
  UpdatedAt : time.Time
}.
End Identity.

Module User.
Record t := mk {
  Identity : Identity.t;
  DisplayName : string;
  AvatarURL : string;
  Roles : list string;
  Active : bool
}.
End User.

Module Project.
Record t := mk {
  ID : string;
  Name : string;
  OwnerID : string;
  Domains : list string;
  CurrentVersion : string;
  Framework : string;
  CreatedAt : time.Time;
  UpdatedAt : time.Time
}.
End Project.

Module Deployment.
Record t := mk {
  ID : string;
  ProjectID : string;
  Version : string;
  Hash : string;
  Status : string;
  URL : string;
  CreatedAt : time.Time;
  ReadyAt : option time.Time
}.
End Deployment.

End types.

(** ** What the client uses of context and net/http *)

Module context.
(** A [context.Context]: its deadline, if any, and whether it is already
    cancelled. *)
Record Context := mk {
  Deadline : option time.Time;
  Cancelled : bool
}.
Definition Background : Context := mk None false.
End context.

Module http.

(** [http.Header]: header name to its values.  [Set] replaces the values of
    a name by the single value given; the two names the client sets are
    already in canonical MIME form. *)
Abbreviation Header := (gmap string (list string)).

Definition Header_Set (h : Header) (key value : string) : Header :=
  <[key := [value]]> h.

(** A request as the client builds it: the method and the URL are the
    strings given to [http.NewRequestWithContext], and the context is the
    caller's. *)
Record Request := mkRequest {
  Method : string;
  URL : string;
  Header_ : Header;
  Body : option go.bytes;
  ctx : context.Context
}.

Record Response := mkResponse {
  StatusCode : Z;
  RespBody : go.bytes
}.

(** [http.Client], of which the SDK sets the timeout only. *)
Record Client := mkClient {
  Timeout : time.Duration
}.

(** [req.Header.Set(key, value)] on a request held by pointer. *)
Definition SetHeader (req : Request) (key value : string) : Request :=
  mkRequest (Method req) (URL req) (Header_Set (Header_ req) key value)
            (Body req) (ctx req).

End http.

(** ** The standard-library calls the client depends on

    [json_Marshal] is [json.Marshal]; [http_validate] is the checking that
    [http.NewRequestWithContext] does on the context, the method and the
    URL before it builds the request, with the error it reports if any;
    [http_RoundTrip] is what the [Do] method of [http.Client] returns for a
    request handed to it, given the client's settings and the requests
    handed over before; [http_trips] is the sequence of requests that this
    one call of [Do] puts on the network: the request handed over as the
    transport gets it (net/http adds, for one, a Basic Authorization header
    when the URL carries user information and no Authorization header is
    set), and one more for every redirect that [Do] follows; the
    [json_Decode_] functions are [json.NewDecoder(body).Decode(&v)] at each
    type the facade decodes. *)

Class Platform := {
  json_Marshal : go.any -> go.result go.bytes;
  http_validate : context.Context -> string -> string -> option go.error;
  http_RoundTrip :
    http.Client -> list http.Request -> http.Request -> go.result http.Response;
  http_trips :
    http.Client -> list http.Request -> http.Request -> list http.Request;
  json_Decode_Identity : go.bytes -> go.result types.Identity.t;
  json_Decode_Project : go.bytes -> go.result types.Project.t;
  json_Decode_Projects : go.bytes -> go.result (list types.Project.t);
  json_Decode_Schema : go.bytes -> go.result string;
  json_Decode_Embedding : go.bytes -> go.result (list go.float32)
}.

(** ** Package client *)

Module client.

Import go.

(** What a call can touch outside the client: [wire] is the requests
    handed to [httpClient.Do], oldest first; [signed] is a log that a
    caller-supplied signing function may write to when it runs; [network]
    is the requests that went over the network, oldest first. *)
Record World := mkWorld {
  wire : list http.Request;
  signed : list string;
  network : list http.Request
}.

Definition World0 : World := mkWorld [] [] [].

(** Calls that may fail and may act on the world. *)
Definition M (T : Type) : Type := World -> result T * World.

Definition ret {T} (v : T) : M T := fun w => (Ok v, w).
Definition fail {T} (err : error) : M T := fun w => (Fail err, w).
Definition bind {T U} (m : M T) (k : T -> M U) : M U :=
  fun w =>
    match m w with
    | (Ok v, w') => k v w'
    | (Fail err, w') => (Fail err, w')
    end.
Definition lift {T} (r : result T) : M T := fun w => (r, w).

Notation "x <- m ;; k" := (bind m (fun x => k))
  (at level 100, m at next level, right associativity).

(** WalletAuth holds Web3 authentication credentials. *)
Record WalletAuth := mkWalletAuth {
  WalletAddress : string;
  SignMessage : string -> M string
}.

(** Client is the Gobackhomee SDK client.  The record is a client as [New]
    builds it, with its [http.Client] in place; the zero value of the Go
    struct, whose [httpClient] is nil and on which [WithTimeout] and
    [doRequest] would dereference nil, is not a value of it. *)
Record Client := mkClient {
  baseURL : string;
  httpClient : http.Client;
  apiKey : string;
  walletAuth : option WalletAuth
}.

(** Option configures the Client. *)
Definition Option := Client -> Client.

Definition WithAPIKey (key : string) : Option :=
  fun c => mkClient (baseURL c) (httpClient c) key (walletAuth c).

Definition WithWalletAuth (auth : option WalletAuth) : Option :=
  fun c => mkClient (baseURL c) (httpClient c) (apiKey c) auth.

Definition WithTimeout (d : time.Duration) : Option :=
  fun c => mkClient (baseURL c) (http.mkClient d) (apiKey c) (walletAuth c).

(** New creates a new Gobackhomee client: the defaults first, then every
    option in the order given. *)
Definition New (baseURL : string) (opts : list Option) : Client :=
  let c := mkClient baseURL (http.mkClient (30 * time.Second)) "" None in
  fold_left (fun c opt => opt c) opts c.

(** [http.NewRequestWithContext]: the request it returns has an empty
    header.  [Method] and [URL] record the two strings it was given; what
    net/http reads out of them (GET for an empty method, the parsed URL)
    is for the platform to say. *)
Definition NewRequestWithContext `{Platform} (ctx : context.Context)
    (method url : string) (body : option bytes) : result http.Request :=
  match http_validate ctx method url with
  | Some err => Fail err
  | None => Ok (http.mkRequest method url ∅ body ctx)
  end.

(** [c.httpClient.Do(req)]: the request is handed to [Do], which puts on
    the network whatever round trips it makes for it and returns its
    answer. *)
Definition Do `{Platform} (hc : http.Client) (req : http.Request)
    : M http.Response :=
  fun w =>
    (http_RoundTrip hc (wire w) req,
     mkWorld (wire w ++ [req]) (signed w)
             (network w ++ http_trips hc (wire w) req)).

(** doRequest performs an HTTP request with authentication. *)
Definition doRequest `{Platform} (c : Client) (ctx : context.Context)
    (method path : string) (body : option any) : M http.Response :=
  bodyReader <-
    match body with
    | Some v =>
        match json_Marshal v with
        | Fail err => fail (Errorf "failed to marshal request body: " err)
        | Ok jsonBody => ret (Some jsonBody)
        end
    | None => ret None
    end ;;
  req <-
    match NewRequestWithContext ctx method (baseURL c +:+ path) bodyReader with
    | Fail err => fail (Errorf "failed to create request: " err)
    | Ok req => ret req
    end ;;
  let req := http.SetHeader req "Content-Type" "application/json" in
  let req :=
    if negb (String.eqb (apiKey c) "")
    then http.SetHeader req "Authorization" ("Bearer " +:+ apiKey c)
    else req in
  Do (httpClient c) req.

(** The facade.  Each method defers [resp.Body.Close()]; closing the body
    has no part in what the method returns or sends and is left out. *)

(** AuthService handles authentication operations (Web3-native). *)
Module AuthService.
Record t := mk { client : Client }.

(** SignInWithEthereum performs SIWE authentication. *)
Definition SignInWithEthereum `{Platform} (a : t) (ctx : context.Context)
    (message signature : string) : M types.Identity.t :=
  resp <- doRequest (client a) ctx "POST" "/api/auth/siwe"
            (Some (StringMap (<["message" := message]>
                              (<["signature" := signature]> ∅)))) ;;
  lift (json_Decode_Identity (http.RespBody resp)).
End AuthService.

(** ProjectsService handles project operations. *)
Module ProjectsService.
Record t := mk { client : Client }.

(** Create creates a new project. *)
Definition Create `{Platform} (p : t) (ctx : context.Context)
    (name : string) : M types.Project.t :=
  resp <- doRequest (client p) ctx "POST" "/api/projects"
            (Some (StringMap (<["name" := name]> ∅))) ;;
  lift (json_Decode_Project (http.RespBody resp)).

(** List lists all projects for the authenticated user. *)
Definition List `{Platform} (p : t) (ctx : context.Context)
    : M (list types.Project.t) :=
  resp <- doRequest (client p) ctx "GET" "/api/projects" None ;;
  lift (json_Decode_Projects (http.RespBody resp)).
End ProjectsService.

(** AIService handles AI operations. *)
Module AIService.
Record t := mk { client : Client }.

(** GenerateSchema uses AI to generate a schema from natural language. *)
Definition GenerateSchema `{Platform} (a : t) (ctx : context.Context)
    (description : string) : M string :=
  resp <- doRequest (client a) ctx "POST" "/api/ai/schema"
            (Some (StringMap (<["description" := description]> ∅))) ;;
  lift (json_Decode_Schema (http.RespBody resp)).

(** Embed generates embeddings for the given text. *)
Definition Embed `{Platform} (a : t) (ctx : context.Context)
    (text : string) : M (list float32) :=
  resp <- doRequest (client a) ctx "POST" "/api/ai/embed"
            (Some (StringMap (<["text" := text]> ∅))) ;;
  lift (json_Decode_Embedding (http.RespBody resp)).
End AIService.

Definition Auth (c : Client) : AuthService.t := AuthService.mk c.
Definition Projects (c : Client) : ProjectsService.t := ProjectsService.mk c.
Definition AI (c : Client) : AIService.t := AIService.mk c.

(** *** Vocabulary for the statements about the client *)

(** The fields of a Client that an option can assign. *)
Inductive Field := FieldAPIKey | FieldWalletAuth | FieldTimeout.

(** [assigns f opt]: [opt] is the package's option for field [f]. *)
Inductive assigns : Field -> Option -> Prop :=
| assigns_key key : assigns FieldAPIKey (WithAPIKey key)
| assigns_wallet auth : assigns FieldWalletAuth (WithWalletAuth auth)
| assigns_timeout d : assigns FieldTimeout (WithTimeout d).

(** [spares f opt]: [opt] is one of the package's options for a field
    other than [f]. *)
Definition spares (f : Field) (opt : Option) : Prop :=
  exists g, g <> f /\ assigns g opt.

(** [encodes body bodyReader]: a nil body needs no reader, and any other
    body is marshalled into the bytes of the reader. *)
Definition encodes `{Platform} (body : option any)
    (bodyReader : option bytes) : Prop :=
  match body, bodyReader with
  | None, None => True
  | Some v, Some jsonBody => json_Marshal v = Ok jsonBody
  | _, _ => False
  end.

(** The request [doRequest] hands to [httpClient.Do] once the body is
    encoded and the method and URL are accepted. *)
Definition outgoing (c : Client) (ctx : context.Context)
    (method path : string) (bodyReader : option bytes) : http.Request :=
  let req := http.mkRequest method (baseURL c +:+ path) ∅ bodyReader ctx in
  let req := http.SetHeader req "Content-Type" "application/json" in
  if negb (String.eqb (apiKey c) "")
  then http.SetHeader req "Authorization" ("Bearer " +:+ apiKey c)
  else req.

(** The requests that running [m] from [w] hands to [httpClient.Do]. *)
Definition sent {T} (m : M T) (w : World) : list http.Request :=
  drop (length (wire w)) (wire (snd (m w))).


(** The values of the Authorization header of a request, if it has one. *)
Definition authorization (req : http.Request) : option (list string) :=
  http.Header_ req !! "Authorization".

End client.

(** ** Content addressing of a deployment's artifact set

    The source carries the digest as the [Hash] field of
    [types.Deployment.t] and nothing that computes or checks it; the
    construction is taken from the specification. *)

Module content.

Import go.

#[global] Instance byte_eq_dec : EqDecision byte := Byte.byte_eq_dec.

(** Modelled from the spec: the pinned protocol parameters, which neither
    the source nor the specification fixes: the hash function and the
    reserved root of the empty artifact set. *)
Class Protocol := {
  hash : bytes -> bytes;
  emptyRoot : bytes
}.

(** Modelled from the spec: an artifact, of which the source has no type:
    its relative path and its content bytes. *)
Definition Artifact : Type := string * bytes.

(** Modelled from the spec: step 1 of the digest algorithm, which the
    source lacks: the artifacts as a sequence sorted by path in
    lexicographic order, here by insertion. *)
Fixpoint insertByPath (a : Artifact) (sorted : list Artifact) : list Artifact :=
  match sorted with
  | [] => [a]
  | b :: rest =>
      if String.leb (fst a) (fst b) then a :: b :: rest
      else b :: insertByPath a rest
  end.

(** Modelled from the spec: the order of step 1 on artifacts, by path. *)
Definition pathLe (a b : Artifact) : Prop :=
  String.leb (fst a) (fst b) = true.

(** Modelled from the spec: the canonical sequence of an artifact set
    given in any enumeration order, which the source lacks. *)
Definition canonicalize (A : list Artifact) : list Artifact :=
  foldr insertByPath [] A.

(** Modelled from the spec: step 2, which the source lacks: the leaf
    digest is the hash of the path followed by the content bytes. *)
Definition leafDigest `{Protocol} (a : Artifact) : bytes :=
  hash (list_byte_of_string (fst a) ++ snd a)%list.

(** Modelled from the spec: one level of step 3, which the source lacks:
    adjacent digests are hashed in pairs, and an odd trailing digest is
    paired with itself. *)
Fixpoint pairUp `{Protocol} (level : list bytes) : list bytes :=
  match level with
  | x :: y :: rest => hash (x ++ y)%list :: pairUp rest
  | [x] => [hash (x ++ x)%list]
  | [] => []
  end.

(** Modelled from the spec: step 3, which the source lacks: levels are
    paired up until one root remains; no digest at all gives the reserved
    empty root.  A level of two or more digests shrinks when paired, so
    [length level] rounds always suffice (see [reduce_fuel]). *)
Fixpoint reduce `{Protocol} (rounds : nat) (level : list bytes) : bytes :=
  match level with
  | [] => emptyRoot
  | [root] => root
  | _ =>
      match rounds with
      | O => emptyRoot
      | S rounds' => reduce rounds' (pairUp level)
      end
  end.

(** Modelled from the spec: the root over a sequence of leaf digests,
    which the source lacks. *)
Definition merkleRoot `{Protocol} (leaves : list bytes) : bytes :=
  reduce (length leaves) leaves.

(** Modelled from the spec: the digest of an artifact set, which the
    source lacks: the Merkle root over the leaf digests of the
    canonical sequence. *)
Definition digest `{Protocol} (A : list Artifact) : bytes :=
  merkleRoot (leafDigest <$> canonicalize A).

(** Modelled from the spec: the error of a failed verification. *)
Definition IntegrityMismatch : error := Err "IntegrityMismatch".

(** Modelled from the spec: verification, which the source lacks: the
    root is recomputed from the artifacts at hand and compared with the
    claimed digest for exact equality. *)
Definition verify `{Protocol} (claimed : bytes) (A : list Artifact)
    : result unit :=
  if decide (digest A = claimed) then Ok tt else Fail IntegrityMismatch.

End content.

(** ** Test doubles

    A scripted encoder, transport and decoder, and two signing functions,
    on which the general statements are run at concrete inputs. *)

Module double.

Import go.

Definition dq : string := String.String "034"%char EmptyString.
Definition quote (s : string) : string := dq +:+ s +:+ dq.

(** Members of a string map as JSON, keys in the order given. *)
Fixpoint members (kvs : list (string * string)) : string :=
  match kvs with
  | [] => EmptyString
  | [(k, v)] => quote k +:+ ":" +:+ quote v
  | (k, v) :: rest => quote k +:+ ":" +:+ quote v +:+ "," +:+ members rest
  end.

Fixpoint insertByKey (kv : string * string) (sorted : list (string * string))
    : list (string * string) :=
  match sorted with
  | [] => [kv]
  | kv' :: rest =>
      if String.leb (fst kv) (fst kv') then kv :: kv' :: rest
      else kv' :: insertByKey kv rest
  end.

(** The encoder: a string map becomes an object with its keys sorted (no
    character of the strings used here needs escaping), a string a JSON
    string, a channel is refused as encoding/json refuses it, and other
    values are not scripted. *)
Definition marshal (v : any) : result bytes :=
  match v with
  | StringMap m =>
      Ok (list_byte_of_string
            ("{" +:+ members (foldr insertByKey [] (map_to_list m)) +:+ "}"))
  | String s => Ok (list_byte_of_string (quote s))
  | Chan => Fail (Err "json: unsupported type: chan int")
  | _ => Fail (Err "double: value not scripted")
  end.

(** A URL with an ASCII control character does not parse. *)
Fixpoint hasControl (s : string) : bool :=
  match s with
  | EmptyString => false
  | String.String a rest =>
      (Nat.ltb (nat_of_ascii a) 32 || Nat.eqb (nat_of_ascii a) 127
       || hasControl rest)%bool
  end.

Definition validate (_ : context.Context) (method url : string)
    : option error :=
  if hasControl url
  then Some (Err "net/url: invalid control character in URL")
  else None.

Definition opensWith (b : byte) (body : bytes) : bool :=
  match body with
  | b' :: _ => Byte.eqb b b'
  | [] => false
  end.

Definition zeroIdentity : types.Identity.t :=
  types.Identity.mk "" "" "" "" "" ∅ time.Zero time.Zero.
Definition zeroProject : types.Project.t :=
  types.Project.mk "" "" "" [] "" "" time.Zero time.Zero.

(** The decoders: a body that opens a JSON object decodes into a struct
    with every field it does not name left at its zero value, and the
    objects used here name none; anything else is refused. *)
Definition decodeStruct {T} (zero : T) (body : bytes) : result T :=
  if opensWith "{"%byte body then Ok zero
  else Fail (Err "json: cannot unmarshal into Go struct").

Definition decodeProjects (body : bytes) : result (list types.Project.t) :=
  if opensWith "["%byte body then Ok []
  else Fail (Err "json: cannot unmarshal object into Go value of type []types.Project").

(** A platform on which [Do] gives the same [answer] to every request
    and makes one round trip for it, with the request as it was handed
    over. *)
Definition platform (answer : result http.Response) : Platform := {|
  json_Marshal := marshal;
  http_validate := validate;
  http_RoundTrip := fun _ _ _ => answer;
  http_trips := fun _ _ req => [req];
  json_Decode_Identity := decodeStruct zeroIdentity;
  json_Decode_Project := decodeStruct zeroProject;
  json_Decode_Projects := decodeProjects;
  json_Decode_Schema := decodeStruct EmptyString;
  json_Decode_Embedding := decodeStruct []
|}.


Definition serverError : http.Response :=
  http.mkResponse 500
    (list_byte_of_string ("{" +:+ quote "error" +:+ ":" +:+ quote "internal" +:+ "}")).

Definition emptyList : http.Response :=
  http.mkResponse 200 (list_byte_of_string "[]").

Definition emptyObject : http.Response :=
  http.mkResponse 200 (list_byte_of_string "{}").

(** A signing function that records the message and refuses to sign. *)
Definition refusingSigner : string -> client.M string :=
  fun message w =>
    (Fail (Err "user rejected the signature request"),
     client.mkWorld (client.wire w) (client.signed w ++ [message])
     (client.network w)).

(** A signing function that records the message and signs it. *)
Definition recordingSigner : string -> client.M string :=
  fun message w =>
    (Ok ("0xsigned:" +:+ message),
     client.mkWorld (client.wire w) (client.signed w ++ [message])
     (client.network w)).

Definition wallet : client.WalletAuth :=
  client.mkWalletAuth "0x52908400098527886E0F7030069857D2E4169EE7" refusingSigner.

(** A hash for running the digest: the length of the input in one byte,
    followed by its first byte. *)
Definition toyProtocol : content.Protocol := {|
  content.hash := fun b =>
    match Byte.of_nat (length b mod 256) with
    | Some n => n :: take 1 b
    | None => take 1 b
    end;
  content.emptyRoot := []
|}.

End double.

(** * Properties *)

Import go client.

(** ** Options and construction *)

Section Options.

Implicit Types (c : Client) (opt : Option) (opts : list Option).

Lemma New_nil url :
  New url [] = mkClient url (http.mkClient 30000000000) "" None.
Proof. reflexivity. Qed.

Lemma New_snoc url opts opt :
  New url (opts ++ [opt]) = opt (New url opts).
Proof. unfold New. cbv zeta. by rewrite fold_left_app. Qed.

(** An option of the package for another field leaves a field as it is. *)
Lemma spares_timeout opt c :
  spares FieldTimeout opt -> httpClient (opt c) = httpClient c.
Proof. intros (g & Hg & Ha). destruct Ha; done. Qed.

Lemma spares_key opt c :
  spares FieldAPIKey opt -> apiKey (opt c) = apiKey c.
Proof. intros (g & Hg & Ha). destruct Ha; done. Qed.

Lemma spares_wallet opt c :
  spares FieldWalletAuth opt -> walletAuth (opt c) = walletAuth c.
Proof. intros (g & Hg & Ha). destruct Ha; done. Qed.

(** A field read after a run of options that spare it is the field before
    the run. *)
Lemma fold_spares {T} (read : Client -> T) f opts :
  (forall opt c, spares f opt -> read (opt c) = read c) ->
  Forall (spares f) opts ->
  forall c, read (fold_left (fun c opt => opt c) opts c) = read c.
Proof.
  intros Hread Hall. induction Hall as [|opt opts Hopt _ IH]; intros c.
  - reflexivity.
  - simpl. rewrite IH. by apply Hread.
Qed.

Lemma fold_options_app opts opts' c :
  fold_left (fun c opt => opt c) (opts ++ opts') c
  = fold_left (fun c opt => opt c) opts' (fold_left (fun c opt => opt c) opts c).
Proof. apply fold_left_app. Qed.

End Options.

(** C10. [New] starts from the defaults, among them an HTTP timeout of 30
    seconds, and then applies the options strictly in argument order: with
    no option given the client is the defaults; a further option at the end
    acts on the client built from the options before it; the timeout stays
    30 seconds when no [WithTimeout] is among the options; and the last
    option given for a field decides that field, whatever was given for it
    before. *)
Theorem New_defaults_then_options_in_order (url : string) (opts : list Option) :
  New url [] = mkClient url (http.mkClient (30 * time.Second)) "" None
  /\ (forall opt, New url (opts ++ [opt]) = opt (New url opts))
  /\ (Forall (spares FieldTimeout) opts ->
      http.Timeout (httpClient (New url opts)) = 30 * time.Second)
  /\ (forall d rest, Forall (spares FieldTimeout) rest ->
      http.Timeout (httpClient (New url (opts ++ WithTimeout d :: rest))) = d)
  /\ (forall key rest, Forall (spares FieldAPIKey) rest ->
      apiKey (New url (opts ++ WithAPIKey key :: rest)) = key)
  /\ (forall auth rest, Forall (spares FieldWalletAuth) rest ->
      walletAuth (New url (opts ++ WithWalletAuth auth :: rest)) = auth).
Proof.
  split; [reflexivity|].
  split; [intros opt; apply New_snoc|].
  split.
  { intros Hall. unfold New. cbv zeta.
    rewrite (fold_spares httpClient FieldTimeout opts); [reflexivity| |assumption].
    intros opt c. apply spares_timeout. }
  split; [|split].
  - intros d rest Hall. unfold New. cbv zeta.
    rewrite fold_options_app. simpl.
    rewrite (fold_spares httpClient FieldTimeout rest); [reflexivity| |assumption].
    intros opt c. apply spares_timeout.
  - intros key rest Hall. unfold New. cbv zeta.
    rewrite fold_options_app. simpl.
    rewrite (fold_spares apiKey FieldAPIKey rest); [reflexivity| |assumption].
    intros opt c. apply spares_key.
  - intros auth rest Hall. unfold New. cbv zeta.
    rewrite fold_options_app. simpl.
    rewrite (fold_spares walletAuth FieldWalletAuth rest); [reflexivity| |assumption].
    intros opt c. apply spares_wallet.
Qed.

Lemma New_defaults_then_options_in_order_witness :
  http.Timeout
    (httpClient (New "http://localhost:8080"
                   [WithAPIKey "k1"; WithWalletAuth None; WithAPIKey "k2"]))
  = 30000000000
  /\ http.Timeout
       (httpClient (New "http://localhost:8080"
                      ([WithAPIKey "k1"; WithTimeout (2 * time.Second)]
                       ++ WithTimeout (5 * time.Second) :: [WithAPIKey "k2"])))
     = 5000000000
  /\ apiKey (New "http://localhost:8080"
               ([WithAPIKey "k1"; WithTimeout (2 * time.Second)]
                ++ WithAPIKey "k2" :: [WithTimeout (5 * time.Second)]))
     = "k2".
Proof.
  split; [|split].
  - apply (proj1 (proj2 (proj2
      (New_defaults_then_options_in_order "http://localhost:8080"
         [WithAPIKey "k1"; WithWalletAuth None; WithAPIKey "k2"])))).
    repeat constructor.
    + exists FieldAPIKey. split; [discriminate | constructor].
    + exists FieldWalletAuth. split; [discriminate | constructor].
    + exists FieldAPIKey. split; [discriminate | constructor].
  - apply (proj1 (proj2 (proj2 (proj2
      (New_defaults_then_options_in_order "http://localhost:8080"
         [WithAPIKey "k1"; WithTimeout (2 * time.Second)]))))
      (5 * time.Second) [WithAPIKey "k2"]).
    repeat constructor.
    exists FieldAPIKey. split; [discriminate | constructor].
  - apply (proj1 (proj2 (proj2 (proj2 (proj2
      (New_defaults_then_options_in_order "http://localhost:8080"
         [WithAPIKey "k1"; WithTimeout (2 * time.Second)])))))
      "k2" [WithTimeout (5 * time.Second)]).
    repeat constructor.
    exists FieldTimeout. split; [discriminate | constructor].
Defined.

(** ** The dispatcher *)

Section Dispatcher.

Context `{P : Platform}.

Implicit Types (c : Client) (ctx : context.Context) (w : World)
  (method path : string) (body : option any) (bodyReader : option bytes)
  (req : http.Request) (resp : http.Response) (err : error).

Lemma bind_Ok {T U} (m : M T) (k : T -> M U) w v w' :
  m w = (Ok v, w') -> bind m k w = k v w'.
Proof. intros Hm. unfold bind. by rewrite Hm. Qed.

Lemma bind_Fail {T U} (m : M T) (k : T -> M U) w err w' :
  m w = (Fail err, w') -> bind m k w = (Fail err, w').
Proof. intros Hm. unfold bind. by rewrite Hm. Qed.

(** The three ways through [doRequest]. *)
Lemma doRequest_marshal_fails c ctx method path v err w :
  json_Marshal v = Fail err ->
  doRequest c ctx method path (Some v) w
  = (Fail (Errorf "failed to marshal request body: " err), w).
Proof. intros Hm. unfold doRequest, bind, fail. by rewrite Hm. Qed.

Lemma doRequest_create_fails c ctx method path body bodyReader err w :
  encodes body bodyReader ->
  http_validate ctx method (baseURL c +:+ path) = Some err ->
  doRequest c ctx method path body w
  = (Fail (Errorf "failed to create request: " err), w).
Proof.
  intros He Hv. unfold doRequest, bind, fail, ret, NewRequestWithContext.
  destruct body as [v|], bodyReader as [b|]; simpl in He; try done.
  - by rewrite He, Hv.
  - by rewrite Hv.
Qed.

Lemma doRequest_sends c ctx method path body bodyReader w :
  encodes body bodyReader ->
  http_validate ctx method (baseURL c +:+ path) = None ->
  doRequest c ctx method path body w
  = (http_RoundTrip (httpClient c) (wire w)
       (outgoing c ctx method path bodyReader),
     mkWorld (wire w ++ [outgoing c ctx method path bodyReader]) (signed w)
             (network w ++ http_trips (httpClient c) (wire w)
                             (outgoing c ctx method path bodyReader))).
Proof.
  intros He Hv.
  unfold doRequest, bind, fail, ret, NewRequestWithContext, Do, outgoing.
  destruct body as [v|], bodyReader as [b|]; simpl in He; try done.
  - by rewrite He, Hv.
  - by rewrite Hv.
Qed.

(** Every call takes one of them. *)
Lemma doRequest_cases c ctx method path body w :
  (exists err, doRequest c ctx method path body w = (Fail err, w))
  \/ (exists bodyReader,
        encodes body bodyReader
        /\ http_validate ctx method (baseURL c +:+ path) = None
        /\ doRequest c ctx method path body w
           = (http_RoundTrip (httpClient c) (wire w)
                (outgoing c ctx method path bodyReader),
              mkWorld (wire w ++ [outgoing c ctx method path bodyReader])
                      (signed w)
                      (network w ++ http_trips (httpClient c) (wire w)
                                      (outgoing c ctx method path bodyReader)))).
Proof.
  assert (Hbody : (exists v err, body = Some v /\ json_Marshal v = Fail err)
                  \/ exists bodyReader, encodes body bodyReader).
  { destruct body as [v|]; [|right; by exists None].
    destruct (json_Marshal v) as [b|err] eqn:Hm.
    - right. by exists (Some b).
    - left. by exists v, err. }
  destruct Hbody as [(v & err & -> & Hm)|(bodyReader & He)].
  - left. eexists. by apply doRequest_marshal_fails.
  - destruct (http_validate ctx method (baseURL c +:+ path)) as [err|] eqn:Hv.
    + left. eexists. by eapply doRequest_create_fails.
    + right. exists bodyReader. split; [done|]. split; [done|].
      by apply doRequest_sends.
Qed.

(** The header of the request that goes out. *)
Lemma outgoing_authorization c ctx method path bodyReader :
  authorization (outgoing c ctx method path bodyReader)
  = if String.eqb (apiKey c) "" then None
    else Some ["Bearer " +:+ apiKey c].
Proof.
  unfold authorization, outgoing. cbv zeta.
  destruct (String.eqb (apiKey c) ""); simpl; unfold http.Header_Set.
  - by rewrite lookup_insert_ne, lookup_empty.
  - by rewrite lookup_insert_eq.
Qed.

Lemma sent_app {T} (m : M T) w reqs :
  wire (snd (m w)) = (wire w ++ reqs)%list -> sent m w = reqs.
Proof. intros Hw. unfold sent. rewrite Hw. by rewrite drop_app_length. Qed.

Lemma sent_nothing {T} (m : M T) w r :
  m w = (r, w) -> sent m w = [].
Proof.
  intros Hm. apply sent_app. rewrite Hm. simpl. by rewrite app_nil_r.
Qed.

Lemma doRequest_wire c ctx method path body w :
  wire (snd (doRequest c ctx method path body w))
  = (wire w ++ sent (doRequest c ctx method path body) w)%list
  /\ signed (snd (doRequest c ctx method path body w)) = signed w.
Proof.
  destruct (doRequest_cases c ctx method path body w)
    as [(err & Hd)|(bodyReader & _ & _ & Hd)].
  - rewrite (sent_nothing _ _ _ Hd), Hd. simpl. by rewrite app_nil_r.
  - rewrite (sent_app _ w [outgoing c ctx method path bodyReader]);
      by rewrite Hd.
Qed.

(** Decoding the answer adds nothing to what went out. *)
Lemma decoded_snd {T} (m : M http.Response) (dec : bytes -> result T) w :
  snd ((resp <- m ;; lift (dec (http.RespBody resp))) w) = snd (m w).
Proof. unfold bind, lift. by destruct (m w) as [[resp|err] w']. Qed.

Lemma decoded_sent {T} (m : M http.Response) (dec : bytes -> result T) w :
  sent (resp <- m ;; lift (dec (http.RespBody resp))) w = sent m w.
Proof. unfold sent. by rewrite decoded_snd. Qed.


(** C7. When the body of a request cannot be marshalled to JSON,
    [doRequest] returns the marshalling error, wrapped, and nothing
    reaches the network: no request is handed to the transport and the
    world is left as it was, whatever the method, the URL and the
    transport are. *)
Theorem doRequest_unencodable_body_never_sent c ctx method path v err w :
  json_Marshal v = Fail err ->
  doRequest c ctx method path (Some v) w
  = (Fail (Errorf "failed to marshal request body: " err), w)
  /\ sent (doRequest c ctx method path (Some v)) w = [].
Proof.
  intros Hm. pose proof (doRequest_marshal_fails c ctx method path v err w Hm) as Hd.
  split; [done|]. by apply (sent_nothing _ _ _ Hd).
Qed.

(** C8. Every request that [doRequest] hands to the transport carries the
    Authorization header [Bearer <key>], as its only value, when the
    client's API key is not empty, and carries no Authorization header
    when the key is empty. *)
Theorem doRequest_bearer_iff_key c ctx method path body w req :
  req ∈ sent (doRequest c ctx method path body) w ->
  (apiKey c <> "" -> authorization req = Some ["Bearer " +:+ apiKey c])
  /\ (apiKey c = "" -> authorization req = None).
Proof.
  intros Hin.
  destruct (doRequest_cases c ctx method path body w)
    as [(err & Hd)|(bodyReader & _ & _ & Hd)].
  - rewrite (sent_nothing _ _ _ Hd) in Hin. by apply elem_of_nil in Hin.
  - rewrite (sent_app _ w [outgoing c ctx method path bodyReader]) in Hin;
      [|by rewrite Hd].
    apply list_elem_of_singleton in Hin as ->.
    rewrite outgoing_authorization.
    destruct (String.eqb_spec (apiKey c) ""); split; congruence.
Qed.

End Dispatcher.

(** ** Credentials, status codes and the facade *)

Section Facade.

Context `{P : Platform}.

Implicit Types (c : Client) (ctx : context.Context) (w : World)
  (method path : string) (body : option any) (bodyReader : option bytes)
  (req : http.Request) (resp : http.Response) (err : error).

(** A facade call that decodes the answer of one dispatcher call returns
    the dispatcher's error as it is, and otherwise what the decoder makes
    of the body. *)
Lemma decoded_Fail {T} (m : M http.Response) (dec : bytes -> result T)
    w err w' :
  m w = (Fail err, w') ->
  (resp <- m ;; lift (dec (http.RespBody resp))) w = (Fail err, w').
Proof. apply bind_Fail. Qed.

Lemma decoded_Ok {T} (m : M http.Response) (dec : bytes -> result T)
    w resp w' :
  m w = (Ok resp, w') ->
  (resp <- m ;; lift (dec (http.RespBody resp))) w
  = (dec (http.RespBody resp), w').
Proof. intros Hm. by rewrite (bind_Ok _ _ _ _ _ Hm). Qed.


(** C1, as the code has it. A client with neither an API key nor a wallet
    is not stopped, and no request of it fails for want of credentials:
    once the body encodes and the method and URL are accepted, [doRequest]
    hands the request it built to [httpClient.Do], having set no
    Authorization header on it, and returns what [Do] returns. *)
Theorem no_credentials_request_goes_out c ctx method path body bodyReader w :
  apiKey c = "" ->
  walletAuth c = None ->
  encodes body bodyReader ->
  http_validate ctx method (baseURL c +:+ path) = None ->
  doRequest c ctx method path body w
  = (http_RoundTrip (httpClient c) (wire w)
       (outgoing c ctx method path bodyReader),
     mkWorld (wire w ++ [outgoing c ctx method path bodyReader]) (signed w)
             (network w ++ http_trips (httpClient c) (wire w)
                             (outgoing c ctx method path bodyReader)))
  /\ authorization (outgoing c ctx method path bodyReader) = None.
Proof.
  intros Hkey _ He Hv. split; [by apply doRequest_sends|].
  rewrite outgoing_authorization, Hkey. reflexivity.
Qed.

(** The dispatcher calls of the five facade methods. *)
Local Abbreviation siweCall c ctx message signature :=
  (doRequest c ctx "POST" "/api/auth/siwe"
     (Some (StringMap (<["message" := message]>
                       (<["signature" := signature]> ∅))))).
Local Abbreviation createCall c ctx name :=
  (doRequest c ctx "POST" "/api/projects"
     (Some (StringMap (<["name" := name]> ∅)))).
Local Abbreviation listCall c ctx :=
  (doRequest c ctx "GET" "/api/projects" None).
Local Abbreviation schemaCall c ctx description :=
  (doRequest c ctx "POST" "/api/ai/schema"
     (Some (StringMap (<["description" := description]> ∅)))).
Local Abbreviation embedCall c ctx text :=
  (doRequest c ctx "POST" "/api/ai/embed"
     (Some (StringMap (<["text" := text]> ∅)))).

(** C2, as the code has it. The client's own code never looks at the
    status code of the response that [httpClient.Do] returns.  Whatever
    response [Do] returns, with whatever status, [doRequest] returns it as
    a response, and each of the five facade methods then decodes its body
    as the shape it expects: the outcome is the decoded value, or the
    decoder's own error when the body does not decode.  An error of [Do]
    comes back as that same error. *)
Theorem status_code_is_not_examined c ctx w :
  (forall method path body bodyReader resp,
      encodes body bodyReader ->
      http_validate ctx method (baseURL c +:+ path) = None ->
      http_RoundTrip (httpClient c) (wire w)
        (outgoing c ctx method path bodyReader) = Ok resp ->
      doRequest c ctx method path body w
      = (Ok resp,
         mkWorld (wire w ++ [outgoing c ctx method path bodyReader])
                   (signed w)
                   (network w ++ http_trips (httpClient c) (wire w)
                                   (outgoing c ctx method path bodyReader))))
  /\ (forall method path body bodyReader err,
        encodes body bodyReader ->
        http_validate ctx method (baseURL c +:+ path) = None ->
        http_RoundTrip (httpClient c) (wire w)
          (outgoing c ctx method path bodyReader) = Fail err ->
        doRequest c ctx method path body w
        = (Fail err,
           mkWorld (wire w ++ [outgoing c ctx method path bodyReader])
                   (signed w)
                   (network w ++ http_trips (httpClient c) (wire w)
                                   (outgoing c ctx method path bodyReader))))
  /\ (forall message signature resp w',
        siweCall c ctx message signature w = (Ok resp, w') ->
        AuthService.SignInWithEthereum (Auth c) ctx message signature w
        = (json_Decode_Identity (http.RespBody resp), w'))
  /\ (forall name resp w',
        createCall c ctx name w = (Ok resp, w') ->
        ProjectsService.Create (Projects c) ctx name w
        = (json_Decode_Project (http.RespBody resp), w'))
  /\ (forall resp w',
        listCall c ctx w = (Ok resp, w') ->
        ProjectsService.List (Projects c) ctx w
        = (json_Decode_Projects (http.RespBody resp), w'))
  /\ (forall description resp w',
        schemaCall c ctx description w = (Ok resp, w') ->
        AIService.GenerateSchema (AI c) ctx description w
        = (json_Decode_Schema (http.RespBody resp), w'))
  /\ (forall text resp w',
        embedCall c ctx text w = (Ok resp, w') ->
        AIService.Embed (AI c) ctx text w
        = (json_Decode_Embedding (http.RespBody resp), w'))
  /\ (forall message signature err w',
        siweCall c ctx message signature w = (Fail err, w') ->
        AuthService.SignInWithEthereum (Auth c) ctx message signature w
        = (Fail err, w'))
  /\ (forall name err w',
        createCall c ctx name w = (Fail err, w') ->
        ProjectsService.Create (Projects c) ctx name w = (Fail err, w'))
  /\ (forall err w',
        listCall c ctx w = (Fail err, w') ->
        ProjectsService.List (Projects c) ctx w = (Fail err, w'))
  /\ (forall description err w',
        schemaCall c ctx description w = (Fail err, w') ->
        AIService.GenerateSchema (AI c) ctx description w = (Fail err, w'))
  /\ (forall text err w',
        embedCall c ctx text w = (Fail err, w') ->
        AIService.Embed (AI c) ctx text w = (Fail err, w')).
Proof.
  split; [|split].
  - intros method path body bodyReader resp He Hv Hrt.
    by rewrite (doRequest_sends _ _ _ _ _ _ _ He Hv), Hrt.
  - intros method path body bodyReader err He Hv Hrt.
    by rewrite (doRequest_sends _ _ _ _ _ _ _ He Hv), Hrt.
  - repeat split; intros;
      first [ by apply decoded_Ok | by apply bind_Fail ].
Qed.

(** C3, as the code has it. No facade method checks its arguments before
    the dispatcher call: [Create] sends its request for every name, the
    empty one too, once the body encodes and the method and URL are
    accepted.  Every facade method returns an error of the dispatcher
    unchanged. *)
Theorem facade_passes_arguments_and_errors_through c ctx w :
  (forall name bodyReader,
      encodes (Some (StringMap (<["name" := name]> ∅))) bodyReader ->
      http_validate ctx "POST" (baseURL c +:+ "/api/projects") = None ->
      sent (ProjectsService.Create (Projects c) ctx name) w
      = [outgoing c ctx "POST" "/api/projects" bodyReader])
  /\ (forall message signature err w',
        siweCall c ctx message signature w = (Fail err, w') ->
        AuthService.SignInWithEthereum (Auth c) ctx message signature w
        = (Fail err, w'))
  /\ (forall name err w',
        createCall c ctx name w = (Fail err, w') ->
        ProjectsService.Create (Projects c) ctx name w = (Fail err, w'))
  /\ (forall err w',
        listCall c ctx w = (Fail err, w') ->
        ProjectsService.List (Projects c) ctx w = (Fail err, w'))
  /\ (forall description err w',
        schemaCall c ctx description w = (Fail err, w') ->
        AIService.GenerateSchema (AI c) ctx description w = (Fail err, w'))
  /\ (forall text err w',
        embedCall c ctx text w = (Fail err, w') ->
        AIService.Embed (AI c) ctx text w = (Fail err, w')).
Proof.
  split.
  { intros name bodyReader He Hv.
    unfold ProjectsService.Create. rewrite decoded_sent.
    apply sent_app. by rewrite (doRequest_sends _ _ _ _ _ _ _ He Hv). }
  repeat split; intros; by apply bind_Fail.
Qed.

(** C4, as the code has it. The API key and the wallet are separate
    fields, and setting one leaves the other: a client can hold both at
    once.  The dispatcher reads the key only, so what [doRequest] does is
    the same with any wallet or none, and the bearer token is the one
    credential it ever puts on a request. *)
Theorem wallet_is_not_read_by_dispatcher c :
  (forall key, walletAuth (WithAPIKey key c) = walletAuth c)
  /\ (forall auth, apiKey (WithWalletAuth auth c) = apiKey c)
  /\ (forall url key auth,
        apiKey (New url [WithAPIKey key; WithWalletAuth auth]) = key
        /\ walletAuth (New url [WithAPIKey key; WithWalletAuth auth]) = auth)
  /\ (forall auth ctx method path body w,
        doRequest (WithWalletAuth auth c) ctx method path body w
        = doRequest c ctx method path body w).
Proof. repeat split. Qed.

(** C5, as the code has it. The sign-in method never runs a signing
    function: the message and the signature are its arguments, and it
    sends them in one dispatcher call.  Its outcome is the same with any
    wallet or none, and nothing is added to the log of signed messages. *)
Theorem sign_in_never_signs c ctx message signature w :
  (forall auth,
      AuthService.SignInWithEthereum (Auth (WithWalletAuth auth c)) ctx
        message signature w
      = AuthService.SignInWithEthereum (Auth c) ctx message signature w)
  /\ signed (snd (AuthService.SignInWithEthereum (Auth c) ctx
                    message signature w))
     = signed w.
Proof.
  split; [reflexivity|].
  unfold AuthService.SignInWithEthereum. rewrite decoded_snd.
  apply doRequest_wire.
Qed.

End Facade.

(** ** Content addressing *)

Section ContentAddressing.

Import content.

Context `{Pr : Protocol}.

Implicit Types (A : list Artifact) (level : list bytes).

(** Pairing up a level about halves it. *)
Lemma pairUp_length n level :
  (length level <= n)%nat ->
  (2 * length (pairUp level) <= length level + 1)%nat.
Proof.
  revert level. induction n as [|n IH]; intros level Hn.
  - destruct level; simpl in *; lia.
  - destruct level as [|x [|y rest]]; simpl in *; try lia.
    specialize (IH rest). lia.
Qed.

(** Rounds beyond the length of the level change nothing: the root is
    reached before the rounds run out. *)
Lemma reduce_fuel rounds : forall level rounds',
  (length level <= rounds)%nat -> (length level <= rounds')%nat ->
  reduce rounds level = reduce rounds' level.
Proof.
  induction rounds as [|n IH]; intros level rounds' Hn Hn'.
  - destruct level as [|x [|y rest]]; simpl in *; try lia;
      destruct rounds'; reflexivity.
  - destruct level as [|x [|y rest]]; try (destruct rounds'; reflexivity).
    destruct rounds' as [|n']; [simpl in Hn'; lia|].
    change (reduce n (pairUp (x :: y :: rest))
            = reduce n' (pairUp (x :: y :: rest))).
    pose proof (pairUp_length _ (x :: y :: rest) (Nat.le_refl _)) as Hp.
    remember (pairUp (x :: y :: rest)) as next eqn:Hnext. clear Hnext.
    simpl in Hn, Hn', Hp.
    apply IH; lia.
Qed.

Lemma merkleRoot_nil : merkleRoot [] = emptyRoot.
Proof. reflexivity. Qed.

Lemma merkleRoot_single x : merkleRoot [x] = x.
Proof. reflexivity. Qed.

Lemma merkleRoot_step x y rest :
  merkleRoot (x :: y :: rest) = merkleRoot (pairUp (x :: y :: rest)).
Proof.
  unfold merkleRoot.
  change (reduce (length (x :: y :: rest)) (x :: y :: rest))
    with (reduce (length (y :: rest)) (pairUp (x :: y :: rest))).
  pose proof (pairUp_length _ (x :: y :: rest) (Nat.le_refl _)) as Hp.
  remember (pairUp (x :: y :: rest)) as next eqn:Hnext. clear Hnext.
  simpl in Hp.
  apply reduce_fuel; simpl; lia.
Qed.

Lemma canonicalize_length A : length (canonicalize A) = length A.
Proof.
  assert (Hins : forall a l, length (insertByPath a l) = S (length l)).
  { intros a l. induction l as [|b l IH]; simpl; [done|].
    destruct (String.leb (fst a) (fst b)); simpl; by rewrite ?IH. }
  induction A as [|a A IH]; simpl; [done|]. by rewrite Hins, IH.
Qed.

(** The order on paths: lexicographic, and so transitive. *)
Lemma ascii_compare_Lt_trans (a b c : ascii) :
  Ascii.compare a b = Lt -> Ascii.compare b c = Lt -> Ascii.compare a c = Lt.
Proof.
  unfold Ascii.compare. rewrite !N.compare_lt_iff. apply N.lt_trans.
Qed.

Lemma string_compare_Lt_trans (s1 : string) : forall s2 s3 : string,
  String.compare s1 s2 = Lt -> String.compare s2 s3 = Lt ->
  String.compare s1 s3 = Lt.
Proof.
  induction s1 as [|a s1 IH]; intros [|b s2] [|c s3]; simpl; try done.
  destruct (Ascii.compare a b) eqn:Hab; try done.
  - apply Ascii.compare_eq_iff in Hab as ->.
    destruct (Ascii.compare b c); try done. apply IH.
  - destruct (Ascii.compare b c) eqn:Hbc; try done.
    + apply Ascii.compare_eq_iff in Hbc as <-. by rewrite Hab.
    + by rewrite (ascii_compare_Lt_trans a b c).
Qed.

Lemma string_leb_trans (s1 s2 s3 : string) :
  String.leb s1 s2 = true -> String.leb s2 s3 = true ->
  String.leb s1 s3 = true.
Proof.
  unfold String.leb.
  destruct (String.compare s1 s2) eqn:H12; try done;
    destruct (String.compare s2 s3) eqn:H23; try done; intros _ _.
  - apply String.compare_eq_iff in H12 as ->. by rewrite H23.
  - apply String.compare_eq_iff in H12 as ->. by rewrite H23.
  - apply String.compare_eq_iff in H23 as <-. by rewrite H12.
  - by rewrite (string_compare_Lt_trans s1 s2 s3).
Qed.

Lemma string_leb_false (s1 s2 : string) :
  String.leb s1 s2 = false -> String.leb s2 s1 = true.
Proof. destruct (String.leb_total s1 s2) as [H|H]; congruence. Qed.

(** Inserting two artifacts with different paths gives the same sequence
    in either order. *)
Lemma insertByPath_comm (a b : Artifact) (l : list Artifact) :
  fst a <> fst b ->
  insertByPath a (insertByPath b l) = insertByPath b (insertByPath a l).
Proof.
  intros Hne. induction l as [|c l IH]; simpl.
  - destruct (String.leb (fst a) (fst b)) eqn:Hab,
             (String.leb (fst b) (fst a)) eqn:Hba; try done.
    + destruct Hne. by apply String.leb_antisym.
    + apply string_leb_false in Hab. congruence.
  - destruct (String.leb (fst a) (fst c)) eqn:Hac,
             (String.leb (fst b) (fst c)) eqn:Hbc; simpl;
      rewrite ?Hac, ?Hbc.
    + destruct (String.leb (fst a) (fst b)) eqn:Hab,
               (String.leb (fst b) (fst a)) eqn:Hba; try done.
      * destruct Hne. by apply String.leb_antisym.
      * apply string_leb_false in Hab. congruence.
    + destruct (String.leb (fst b) (fst a)) eqn:Hba; [|done].
      rewrite (string_leb_trans _ _ _ Hba Hac) in Hbc. done.
    + destruct (String.leb (fst a) (fst b)) eqn:Hab; [|done].
      rewrite (string_leb_trans _ _ _ Hab Hbc) in Hac. done.
    + by rewrite IH.
Qed.

(** The canonical sequence of an artifact set does not depend on the order
    in which the artifacts are enumerated. *)
Lemma canonicalize_permutation A A' :
  NoDup (fst <$> A) -> A ≡ₚ A' -> canonicalize A = canonicalize A'.
Proof.
  intros Hnd Hperm. unfold canonicalize.
  apply (foldr_permutation eq insertByPath []); [|done].
  intros j1 a1 j2 a2 l Hj H1 H2. apply insertByPath_comm.
  intros Heq. apply Hj.
  apply (NoDup_lookup (fst <$> A) j1 j2 (fst a1)); [done| |].
  - rewrite list_lookup_fmap. unfold Artifact in *. by rewrite H1.
  - rewrite list_lookup_fmap. unfold Artifact in *. by rewrite H2, Heq.
Qed.

Lemma insertByPath_perm (a : Artifact) (l : list Artifact) :
  insertByPath a l ≡ₚ a :: l.
Proof.
  induction l as [|b l IH]; simpl; [done|].
  destruct (String.leb (fst a) (fst b)); [done|].
  rewrite IH. apply perm_swap.
Qed.

Lemma canonicalize_perm A : canonicalize A ≡ₚ A.
Proof.
  induction A as [|a A IH]; simpl; [done|].
  unfold canonicalize in *. simpl. by rewrite insertByPath_perm, IH.
Qed.

Lemma insertByPath_sorted (a : Artifact) (l : list Artifact) :
  StronglySorted pathLe l -> StronglySorted pathLe (insertByPath a l).
Proof.
  induction 1 as [|b l Hs IH Hb]; simpl.
  - by repeat constructor.
  - destruct (String.leb (fst a) (fst b)) eqn:Hab.
    + constructor; [by constructor|]. constructor; [done|].
      eapply Forall_impl; [exact Hb|].
      intros c Hbc. by apply (string_leb_trans _ (fst b)).
    + constructor; [done|]. rewrite insertByPath_perm.
      constructor; [|done]. by apply string_leb_false.
Qed.

Lemma canonicalize_sorted A : StronglySorted pathLe (canonicalize A).
Proof.
  induction A as [|a A IH]; simpl; [constructor|].
  by apply insertByPath_sorted.
Qed.

Lemma digest_empty : digest [] = emptyRoot.
Proof. reflexivity. Qed.

Lemma digest_permutation A A' :
  NoDup (fst <$> A) -> A ≡ₚ A' -> digest A = digest A'.
Proof.
  intros Hnd Hperm. unfold digest.
  by rewrite (canonicalize_permutation A A').
Qed.

(** C6. Verifying an artifact set against the digest computed from it
    succeeds, in whatever order its artifacts are enumerated on the two
    sides, the digest being the Merkle root over the leaf digests of the
    artifacts sorted by path: the sorted sequence holds the same artifacts
    in path order, the leaves are paired up level by level until one root
    remains, and no artifact at all gives the empty root.  Verification of
    any claimed digest either succeeds, the claim being the recomputed
    digest, or fails with IntegrityMismatch, the claim being another
    digest: a mismatch is never passed over. *)
Theorem verify_accepts_own_digest A :
  verify (digest A) A = Ok tt
  /\ (forall A', NoDup (fst <$> A) -> A ≡ₚ A' ->
       verify (digest A) A' = Ok tt)
  /\ (forall claimed,
        (verify claimed A = Ok tt /\ claimed = digest A)
        \/ (verify claimed A = Fail IntegrityMismatch /\ claimed <> digest A))
  /\ canonicalize A ≡ₚ A
  /\ StronglySorted pathLe (canonicalize A)
  /\ digest A = merkleRoot (leafDigest <$> canonicalize A)
  /\ merkleRoot [] = emptyRoot
  /\ (forall x, merkleRoot [x] = x)
  /\ (forall x y rest,
        merkleRoot (x :: y :: rest) = merkleRoot (pairUp (x :: y :: rest))).
Proof.
  split; [unfold verify; by rewrite decide_True|].
  split.
  { intros A' Hnd Hperm. unfold verify.
    by rewrite decide_True by (symmetry; by apply digest_permutation). }
  split.
  { intros claimed. unfold verify.
    destruct (decide (digest A = claimed)) as [Heq|Hne].
    - left. by split.
    - right. split; [done|]. congruence. }
  split; [apply canonicalize_perm|].
  split; [apply canonicalize_sorted|].
  split; [reflexivity|].
  split; [reflexivity|].
  split; [reflexivity|].
  apply merkleRoot_step.
Qed.

End ContentAddressing.

(** ** The statements run on the test doubles *)

(** C7 at a channel body: the encoder refuses it and nothing is sent. *)
Lemma doRequest_unencodable_body_never_sent_witness :
  @doRequest (double.platform (Ok double.emptyObject))
    (New "http://localhost:8080" [WithAPIKey "secret"]) context.Background
    "POST" "/api/projects" (Some Chan) World0
  = (Fail (Errorf "failed to marshal request body: "
             (Err "json: unsupported type: chan int")), World0)
  /\ sent (@doRequest (double.platform (Ok double.emptyObject))
             (New "http://localhost:8080" [WithAPIKey "secret"])
             context.Background "POST" "/api/projects" (Some Chan)) World0
     = [].
Proof.
  apply (@doRequest_unencodable_body_never_sent
           (double.platform (Ok double.emptyObject))).
  reflexivity.
Defined.

(** C8 with the key [secret]: the request that goes out carries the bearer
    token. *)
Lemma doRequest_bearer_iff_key_witness :
  authorization
    (outgoing (New "http://localhost:8080" [WithAPIKey "secret"])
       context.Background "GET" "/api/projects" None)
  = Some ["Bearer secret"].
Proof.
  apply (proj1 (@doRequest_bearer_iff_key
                  (double.platform (Ok double.emptyList))
                  (New "http://localhost:8080" [WithAPIKey "secret"])
                  context.Background "GET" "/api/projects" None World0
                  (outgoing (New "http://localhost:8080" [WithAPIKey "secret"])
                     context.Background "GET" "/api/projects" None)
                  (list_elem_of_here _ _))).
  discriminate.
Defined.



(** C1 on a client built with no option: the request is handed to
    [httpClient.Do], it reaches the network, and the answer comes back;
    nothing fails. *)
Lemma no_credentials_request_is_not_refused :
  apiKey (New "http://localhost:8080" []) = ""
  /\ walletAuth (New "http://localhost:8080" []) = None
  /\ @doRequest (double.platform (Ok double.emptyList))
       (New "http://localhost:8080" []) context.Background
       "GET" "/api/projects" None World0
     = (Ok double.emptyList,
        mkWorld [outgoing (New "http://localhost:8080" []) context.Background
                   "GET" "/api/projects" None] []
                [outgoing (New "http://localhost:8080" []) context.Background
                   "GET" "/api/projects" None])
  /\ @ProjectsService.List (double.platform (Ok double.emptyList))
       (Projects (New "http://localhost:8080" [])) context.Background World0
     = (Ok [],
        mkWorld [outgoing (New "http://localhost:8080" []) context.Background
                   "GET" "/api/projects" None] []
                [outgoing (New "http://localhost:8080" []) context.Background
                   "GET" "/api/projects" None]).
Proof. repeat split. Defined.

Lemma no_credentials_request_goes_out_witness :
  @doRequest (double.platform (Ok double.emptyList))
    (New "http://localhost:8080" []) context.Background
    "GET" "/api/projects" None World0
  = (Ok double.emptyList,
     mkWorld [outgoing (New "http://localhost:8080" []) context.Background
                "GET" "/api/projects" None] []
             [outgoing (New "http://localhost:8080" []) context.Background
                "GET" "/api/projects" None])
  /\ authorization
       (outgoing (New "http://localhost:8080" []) context.Background
          "GET" "/api/projects" None) = None.
Proof.
  apply (@no_credentials_request_goes_out
           (double.platform (Ok double.emptyList))
           (New "http://localhost:8080" []) context.Background
           "GET" "/api/projects" None None World0
           eq_refl eq_refl I eq_refl).
Defined.

(** C2 on a server that answers 500 with an error object: the dispatcher
    returns the response, and the sign-in method decodes it and returns an
    Identity with no error at all. *)
Lemma server_error_is_decoded_as_identity :
  http.StatusCode double.serverError = 500
  /\ fst (@doRequest (double.platform (Ok double.serverError))
            (New "http://localhost:8080" []) context.Background
            "POST" "/api/auth/siwe"
            (Some (StringMap (<["message" := "msg"]>
                              (<["signature" := "0xsig"]> ∅)))) World0)
     = Ok double.serverError
  /\ fst (@AuthService.SignInWithEthereum
            (double.platform (Ok double.serverError))
            (Auth (New "http://localhost:8080" [])) context.Background
            "msg" "0xsig" World0)
     = Ok double.zeroIdentity.
Proof. repeat split. Defined.

Lemma status_code_is_not_examined_witness :
  @AuthService.SignInWithEthereum (double.platform (Ok double.serverError))
    (Auth (New "http://localhost:8080" [])) context.Background
    "msg" "0xsig" World0
  = (Ok double.zeroIdentity,
     snd (@doRequest (double.platform (Ok double.serverError))
            (New "http://localhost:8080" []) context.Background
            "POST" "/api/auth/siwe"
            (Some (StringMap (<["message" := "msg"]>
                              (<["signature" := "0xsig"]> ∅)))) World0)).
Proof.
  apply (proj1 (proj2 (proj2
           (@status_code_is_not_examined
              (double.platform (Ok double.serverError))
              (New "http://localhost:8080" []) context.Background World0)))
         "msg" "0xsig" double.serverError).
  reflexivity.
Defined.

(** C3 at the empty name: [Create] sends the request all the same, with
    the empty name in its body, and returns what the server's answer
    decodes to. *)
Lemma create_sends_empty_name :
  sent (@ProjectsService.Create (double.platform (Ok double.emptyObject))
          (Projects (New "http://localhost:8080" [])) context.Background
          EmptyString) World0
  = [outgoing (New "http://localhost:8080" []) context.Background
       "POST" "/api/projects"
       (Some (list_byte_of_string
                ("{" +:+ double.quote "name" +:+ ":"
                 +:+ double.quote EmptyString +:+ "}")))]
  /\ fst (@ProjectsService.Create (double.platform (Ok double.emptyObject))
            (Projects (New "http://localhost:8080" [])) context.Background
            EmptyString World0)
     = Ok double.zeroProject.
Proof. split; reflexivity. Defined.

Lemma facade_passes_arguments_and_errors_through_witness :
  sent (@ProjectsService.Create (double.platform (Ok double.emptyObject))
          (Projects (New "http://localhost:8080" [])) context.Background
          EmptyString) World0
  = [outgoing (New "http://localhost:8080" []) context.Background
       "POST" "/api/projects"
       (Some (list_byte_of_string
                ("{" +:+ double.quote "name" +:+ ":"
                 +:+ double.quote EmptyString +:+ "}")))].
Proof.
  apply (proj1 (@facade_passes_arguments_and_errors_through
                  (double.platform (Ok double.emptyObject))
                  (New "http://localhost:8080" []) context.Background World0)
           EmptyString).
  - reflexivity.
  - reflexivity.
Defined.

(** C4 on a client given both an API key and a wallet: it holds both, and
    the sign-in request carries the bearer token together with the message
    and the signature. *)
Lemma client_holds_key_and_wallet_together :
  apiKey (New "http://localhost:8080"
            [WithAPIKey "secret"; WithWalletAuth (Some double.wallet)])
  = "secret"
  /\ walletAuth (New "http://localhost:8080"
                   [WithAPIKey "secret"; WithWalletAuth (Some double.wallet)])
     = Some double.wallet
  /\ (authorization <$>
        sent (@AuthService.SignInWithEthereum
                (double.platform (Ok double.emptyObject))
                (Auth (New "http://localhost:8080"
                         [WithAPIKey "secret";
                          WithWalletAuth (Some double.wallet)]))
                context.Background "msg" "0xsig") World0)
     = [Some ["Bearer secret"]]
  /\ (http.Body <$>
        sent (@AuthService.SignInWithEthereum
                (double.platform (Ok double.emptyObject))
                (Auth (New "http://localhost:8080"
                         [WithAPIKey "secret";
                          WithWalletAuth (Some double.wallet)]))
                context.Background "msg" "0xsig") World0)
     = [Some (list_byte_of_string
                ("{" +:+ double.quote "message" +:+ ":" +:+ double.quote "msg"
                 +:+ "," +:+ double.quote "signature" +:+ ":"
                 +:+ double.quote "0xsig" +:+ "}"))].
Proof. repeat split. Defined.

(** C5 on a client whose signing function refuses every message: asked
    directly it fails and logs the message; the sign-in method does not ask
    it, and returns an Identity. *)
Lemma sign_in_ignores_refusing_signer :
  SignMessage double.wallet "msg" World0
  = (Fail (Err "user rejected the signature request"), mkWorld [] ["msg"] [])
  /\ fst (@AuthService.SignInWithEthereum
            (double.platform (Ok double.emptyObject))
            (Auth (New "http://localhost:8080"
                     [WithWalletAuth (Some double.wallet)]))
            context.Background "msg" "0xsig" World0)
     = Ok double.zeroIdentity
  /\ signed (snd (@AuthService.SignInWithEthereum
                    (double.platform (Ok double.emptyObject))
                    (Auth (New "http://localhost:8080"
                             [WithWalletAuth (Some double.wallet)]))
                    context.Background "msg" "0xsig" World0))
     = [].
Proof. repeat split. Defined.

(** C6 on a toy hash: three artifacts given out of order. *)
Example digest_runs :
  @content.digest double.toyProtocol
    [("style.css", list_byte_of_string "body{}");
     ("index.html", list_byte_of_string "hi");
     ("app.js", [])]
  = [x04; x04]%byte
  /\ @content.verify double.toyProtocol [x04; x04]%byte
       [("app.js", []);
        ("index.html", list_byte_of_string "hi");
        ("style.css", list_byte_of_string "body{}")]
     = Ok tt
  /\ @content.verify double.toyProtocol [x04; x05]%byte
       [("app.js", []);
        ("index.html", list_byte_of_string "hi");
        ("style.css", list_byte_of_string "body{}")]
     = Fail content.IntegrityMismatch.
Proof. repeat split. Qed.


(** * Further properties of the client *)

(** ** Options *)

Section MoreOptions.

Implicit Types (c : Client) (opt : Option) (opts : list Option).

Lemma assigns_commute f g opt1 opt2 c :
  assigns f opt1 -> assigns g opt2 -> f <> g -> opt1 (opt2 c) = opt2 (opt1 c).
Proof. intros H1 H2 Hne. destruct H1, H2; done. Qed.

Lemma assigns_override f opt1 opt2 c :
  assigns f opt1 -> assigns f opt2 -> opt2 (opt1 c) = opt2 c.
Proof.
  intros H1 H2. inversion H1; subst; inversion H2; subst; reflexivity.
Qed.

Lemma assigns_baseURL f opt c : assigns f opt -> baseURL (opt c) = baseURL c.
Proof. intros H. destruct H; reflexivity. Qed.

(** Options for two different fields can be given in either order: each
    acts on the client alike, and two neighbours among the arguments of
    [New] can be swapped without changing the client built. *)
Theorem options_of_different_fields_commute f g opt1 opt2 :
  assigns f opt1 -> assigns g opt2 -> f <> g ->
  (forall c, opt1 (opt2 c) = opt2 (opt1 c))
  /\ (forall url before after,
        New url (before ++ opt1 :: opt2 :: after)
        = New url (before ++ opt2 :: opt1 :: after)).
Proof.
  intros H1 H2 Hne. split.
  - intros c. by apply (assigns_commute f g).
  - intros url before after. unfold New. cbv zeta.
    rewrite !fold_options_app. simpl.
    by rewrite (assigns_commute g f opt2 opt1) by done.
Qed.

(** An option followed by another option for the same field has no effect
    on the client built: it can be left out of the arguments of [New]. *)
Theorem overridden_option_has_no_effect f opt1 opt2 url before after :
  assigns f opt1 -> assigns f opt2 ->
  New url (before ++ opt1 :: opt2 :: after)
  = New url (before ++ opt2 :: after).
Proof.
  intros H1 H2. unfold New. cbv zeta.
  rewrite !fold_options_app. simpl.
  by rewrite (assigns_override f opt1 opt2).
Qed.

Lemma fold_baseURL opts :
  Forall (fun opt => exists f, assigns f opt) opts ->
  forall c, baseURL (fold_left (fun c opt => opt c) opts c) = baseURL c.
Proof.
  intros Hall. induction Hall as [|opt opts (f & Hf) _ IH]; intros c.
  - reflexivity.
  - simpl. rewrite IH. by apply (assigns_baseURL f).
Qed.

(** No option of the package changes the base URL: the client built by
    [New] has the URL given, whatever options follow it. *)
Theorem options_keep_baseURL url opts :
  Forall (fun opt => exists f, assigns f opt) opts ->
  baseURL (New url opts) = url.
Proof.
  intros Hall. unfold New. cbv zeta. by rewrite fold_baseURL.
Qed.

End MoreOptions.

Lemma options_of_different_fields_commute_witness :
  New "http://localhost:8080"
    ([WithWalletAuth None] ++ WithAPIKey "secret"
       :: WithTimeout (5 * time.Second) :: [])
  = New "http://localhost:8080"
      ([WithWalletAuth None] ++ WithTimeout (5 * time.Second)
         :: WithAPIKey "secret" :: []).
Proof.
  apply (proj2 (options_of_different_fields_commute
                  FieldAPIKey FieldTimeout (WithAPIKey "secret")
                  (WithTimeout (5 * time.Second))
                  (assigns_key "secret") (assigns_timeout (5 * time.Second))
                  ltac:(discriminate))).
Defined.

Lemma overridden_option_has_no_effect_witness :
  New "http://localhost:8080"
    ([WithTimeout (5 * time.Second)] ++ WithAPIKey "old"
       :: WithAPIKey "new" :: [WithWalletAuth None])
  = New "http://localhost:8080"
      ([WithTimeout (5 * time.Second)] ++ WithAPIKey "new"
         :: [WithWalletAuth None]).
Proof.
  apply (overridden_option_has_no_effect FieldAPIKey
           (WithAPIKey "old") (WithAPIKey "new")
           "http://localhost:8080" [WithTimeout (5 * time.Second)]
           [WithWalletAuth None] (assigns_key "old") (assigns_key "new")).
Defined.

Lemma options_keep_baseURL_witness :
  baseURL (New "http://localhost:8080"
             [WithAPIKey "secret"; WithTimeout (5 * time.Second);
              WithWalletAuth (Some double.wallet)])
  = "http://localhost:8080".
Proof.
  apply (options_keep_baseURL "http://localhost:8080"
           [WithAPIKey "secret"; WithTimeout (5 * time.Second);
            WithWalletAuth (Some double.wallet)]).
  apply List.Forall_cons; [eexists; apply assigns_key|].
  apply List.Forall_cons; [eexists; apply assigns_timeout|].
  apply List.Forall_cons; [eexists; apply assigns_wallet|].
  apply List.Forall_nil.
Defined.

(** ** The dispatcher, further *)

Section MoreDispatcher.

Context `{P : Platform}.

Implicit Types (c : Client) (ctx : context.Context) (w : World)
  (method path : string) (body : option any) (bodyReader : option bytes)
  (req : http.Request) (resp : http.Response) (err : error).

Lemma outgoing_fields c ctx method path bodyReader :
  http.Method (outgoing c ctx method path bodyReader) = method
  /\ http.URL (outgoing c ctx method path bodyReader) = baseURL c +:+ path
  /\ http.Body (outgoing c ctx method path bodyReader) = bodyReader
  /\ http.ctx (outgoing c ctx method path bodyReader) = ctx.
Proof.
  unfold outgoing. cbv zeta.
  by destruct (negb (String.eqb (apiKey c) "")).
Qed.

Lemma outgoing_content_type c ctx method path bodyReader :
  http.Header_ (outgoing c ctx method path bodyReader) !! "Content-Type"
  = Some ["application/json"].
Proof.
  unfold outgoing. cbv zeta.
  destruct (negb (String.eqb (apiKey c) "")); simpl; unfold http.Header_Set.
  - rewrite lookup_insert_ne by done. by rewrite lookup_insert_eq.
  - by rewrite lookup_insert_eq.
Qed.

Lemma outgoing_other_headers c ctx method path bodyReader (name : string) :
  name <> "Content-Type" -> name <> "Authorization" ->
  http.Header_ (outgoing c ctx method path bodyReader) !! name = None.
Proof.
  intros Hct Hauth. unfold outgoing. cbv zeta.
  destruct (negb (String.eqb (apiKey c) "")); simpl; unfold http.Header_Set.
  - rewrite !lookup_insert_ne by done. apply lookup_empty.
  - rewrite lookup_insert_ne by done. apply lookup_empty.
Qed.

(** A request that went out is the one built from the arguments. *)
Lemma sent_is_outgoing c ctx method path body w req :
  req ∈ sent (doRequest c ctx method path body) w ->
  exists bodyReader,
    encodes body bodyReader
    /\ http_validate ctx method (baseURL c +:+ path) = None
    /\ req = outgoing c ctx method path bodyReader.
Proof.
  intros Hin.
  destruct (doRequest_cases c ctx method path body w)
    as [(err & Hd)|(bodyReader & He & Hv & Hd)].
  - rewrite (sent_nothing _ _ _ Hd) in Hin. by apply elem_of_nil in Hin.
  - rewrite (sent_app _ w [outgoing c ctx method path bodyReader]) in Hin;
      [|by rewrite Hd].
    apply list_elem_of_singleton in Hin. by exists bodyReader.
Qed.

(** When the method or the URL is refused, [doRequest] returns the error of
    [http.NewRequestWithContext], wrapped, and hands nothing to the
    transport: the world is left as it was. *)
Theorem doRequest_unbuildable_request_never_sent
    c ctx method path body bodyReader err w :
  encodes body bodyReader ->
  http_validate ctx method (baseURL c +:+ path) = Some err ->
  doRequest c ctx method path body w
  = (Fail (Errorf "failed to create request: " err), w)
  /\ sent (doRequest c ctx method path body) w = [].
Proof.
  intros He Hv.
  pose proof (doRequest_create_fails c ctx method path body bodyReader err w
                He Hv) as Hd.
  split; [done|]. by apply (sent_nothing _ _ _ Hd).
Qed.

(** As [doRequest] hands a request to [httpClient.Do], the request has
    the marshalled body (none for a nil body), the Content-Type
    [application/json] whether it has a body or not, and no header set
    besides Content-Type and Authorization. *)
Theorem doRequest_sets_content_type c ctx method path body w req :
  req ∈ sent (doRequest c ctx method path body) w ->
  encodes body (http.Body req)
  /\ http.Header_ req !! "Content-Type" = Some ["application/json"]
  /\ (forall name : string,
        name <> "Content-Type" -> name <> "Authorization" ->
        http.Header_ req !! name = None).
Proof.
  intros Hin.
  destruct (sent_is_outgoing _ _ _ _ _ _ _ Hin) as (bodyReader & He & _ & ->).
  destruct (outgoing_fields c ctx method path bodyReader)
    as (_ & _ & Hb & _).
  rewrite Hb. split; [done|]. split.
  - apply outgoing_content_type.
  - intros name. apply outgoing_other_headers.
Qed.

End MoreDispatcher.

(** ** From the options to the wire *)

Section OptionsToWire.

Context `{P : Platform}.

Implicit Types (c : Client) (ctx : context.Context) (w : World)
  (method path : string) (body : option any) (bodyReader : option bytes)
  (req : http.Request) (opts rest : list Option).

Lemma New_last_timeout url opts d rest :
  Forall (spares FieldTimeout) rest ->
  httpClient (New url (opts ++ WithTimeout d :: rest)) = http.mkClient d.
Proof.
  intros Hall. unfold New. cbv zeta. rewrite fold_options_app. simpl.
  rewrite (fold_spares httpClient FieldTimeout rest); [reflexivity| |assumption].
  intros opt c. apply spares_timeout.
Qed.

Lemma New_no_timeout url opts :
  Forall (spares FieldTimeout) opts ->
  httpClient (New url opts) = http.mkClient (30 * time.Second).
Proof.
  intros Hall. unfold New. cbv zeta.
  rewrite (fold_spares httpClient FieldTimeout opts); [reflexivity| |assumption].
  intros opt c. apply spares_timeout.
Qed.

Lemma New_last_key url opts key rest :
  Forall (spares FieldAPIKey) rest ->
  apiKey (New url (opts ++ WithAPIKey key :: rest)) = key.
Proof.
  intros Hall. unfold New. cbv zeta. rewrite fold_options_app. simpl.
  rewrite (fold_spares apiKey FieldAPIKey rest); [reflexivity| |assumption].
  intros opt c. apply spares_key.
Qed.

Lemma New_no_key url opts :
  Forall (spares FieldAPIKey) opts -> apiKey (New url opts) = "".
Proof.
  intros Hall. unfold New. cbv zeta.
  rewrite (fold_spares apiKey FieldAPIKey opts); [reflexivity| |assumption].
  intros opt c. apply spares_key.
Qed.

(** The timeout the client was built with is the one the transport runs
    under: the duration of the last [WithTimeout] among the options of
    [New], and 30 seconds when there is none. *)
Theorem configured_timeout_reaches_transport
    url ctx method path body bodyReader w :
  (forall opts d rest c,
      c = New url (opts ++ WithTimeout d :: rest) ->
      Forall (spares FieldTimeout) rest ->
      encodes body bodyReader ->
      http_validate ctx method (baseURL c +:+ path) = None ->
      fst (doRequest c ctx method path body w)
      = http_RoundTrip (http.mkClient d) (wire w)
          (outgoing c ctx method path bodyReader))
  /\ (forall opts c,
        c = New url opts ->
        Forall (spares FieldTimeout) opts ->
        encodes body bodyReader ->
        http_validate ctx method (baseURL c +:+ path) = None ->
        fst (doRequest c ctx method path body w)
        = http_RoundTrip (http.mkClient 30000000000) (wire w)
            (outgoing c ctx method path bodyReader)).
Proof.
  split.
  - intros opts d rest c -> Hall He Hv.
    rewrite (doRequest_sends _ _ _ _ _ _ _ He Hv). simpl.
    by rewrite New_last_timeout.
  - intros opts c -> Hall He Hv.
    rewrite (doRequest_sends _ _ _ _ _ _ _ He Hv). simpl.
    by rewrite New_no_timeout.
Qed.

(** The last [WithAPIKey] among the options of [New] decides the
    Authorization header that the dispatcher sets on every request it
    hands to [httpClient.Do]: the bearer token of that key, and none when
    that key is empty, even if an earlier option gave a key. *)
Theorem last_key_decides_authorization
    url opts key rest c ctx method path body w req :
  c = New url (opts ++ WithAPIKey key :: rest) ->
  Forall (spares FieldAPIKey) rest ->
  req ∈ sent (doRequest c ctx method path body) w ->
  (key <> "" -> authorization req = Some ["Bearer " +:+ key])
  /\ (key = "" -> authorization req = None).
Proof.
  intros -> Hall Hin.
  destruct (sent_is_outgoing _ _ _ _ _ _ _ Hin) as (bodyReader & _ & _ & ->).
  rewrite outgoing_authorization, New_last_key by done.
  destruct (String.eqb_spec key ""); split; congruence.
Qed.

(** On a client built without any [WithAPIKey], the dispatcher sets no
    Authorization header on any request it hands to [httpClient.Do],
    whatever wallet the client was given: the dispatcher puts nothing of
    the wallet on a request. *)
Theorem client_without_key_sends_no_authorization
    url opts c ctx method path body w req :
  c = New url opts ->
  Forall (spares FieldAPIKey) opts ->
  req ∈ sent (doRequest c ctx method path body) w ->
  authorization req = None.
Proof.
  intros -> Hall Hin.
  destruct (sent_is_outgoing _ _ _ _ _ _ _ Hin) as (bodyReader & _ & _ & ->).
  by rewrite outgoing_authorization, New_no_key.
Qed.

End OptionsToWire.

(** ** The facade, end to end *)

Section FacadeEndToEnd.

Context `{P : Platform}.

Implicit Types (c : Client) (ctx : context.Context) (w : World)
  (method path : string) (body : option any) (bodyReader : option bytes)
  (req : http.Request) (resp : http.Response) (err : error).

(** A decoded dispatcher call that returns a value has handed one request
    to [httpClient.Do]. *)
Lemma decoded_Ok_sent {T} (dec : bytes -> result T)
    c ctx method path body w (v : T) :
  fst ((resp <- doRequest c ctx method path body ;;
        lift (dec (http.RespBody resp))) w) = Ok v ->
  length (sent (resp <- doRequest c ctx method path body ;;
                lift (dec (http.RespBody resp))) w) = 1%nat.
Proof.
  intros Hok. rewrite decoded_sent.
  destruct (doRequest_cases c ctx method path body w)
    as [(err & Hd)|(bodyReader & _ & _ & Hd)].
  - rewrite (bind_Fail _ _ _ _ _ Hd) in Hok. discriminate.
  - by rewrite (sent_app _ w [outgoing c ctx method path bodyReader]);
      [|rewrite Hd].
Qed.

(** No facade method returns a value of its own making: whenever one
    returns a value and no error, exactly one request was handed to
    [httpClient.Do] during the call. *)
Theorem facade_value_needs_round_trip c ctx w :
  (forall message signature v,
      fst (AuthService.SignInWithEthereum (Auth c) ctx message signature w)
      = Ok v ->
      length (sent (AuthService.SignInWithEthereum (Auth c) ctx
                      message signature) w) = 1%nat)
  /\ (forall name v,
        fst (ProjectsService.Create (Projects c) ctx name w) = Ok v ->
        length (sent (ProjectsService.Create (Projects c) ctx name) w)
        = 1%nat)
  /\ (forall v,
        fst (ProjectsService.List (Projects c) ctx w) = Ok v ->
        length (sent (ProjectsService.List (Projects c) ctx) w) = 1%nat)
  /\ (forall description v,
        fst (AIService.GenerateSchema (AI c) ctx description w) = Ok v ->
        length (sent (AIService.GenerateSchema (AI c) ctx description) w)
        = 1%nat)
  /\ (forall text v,
        fst (AIService.Embed (AI c) ctx text w) = Ok v ->
        length (sent (AIService.Embed (AI c) ctx text) w) = 1%nat).
Proof.
  repeat split; intros; by eapply decoded_Ok_sent.
Qed.

End FacadeEndToEnd.

(** ** The further statements run on the test doubles *)

Lemma doRequest_unbuildable_request_never_sent_witness :
  @doRequest (double.platform (Ok double.emptyList))
    (New (String.String "127"%char "http://localhost:8080") [])
    context.Background "GET" "/api/projects" None World0
  = (Fail (Errorf "failed to create request: "
             (Err "net/url: invalid control character in URL")), World0)
  /\ sent (@doRequest (double.platform (Ok double.emptyList))
             (New (String.String "127"%char "http://localhost:8080") [])
             context.Background "GET" "/api/projects" None) World0
     = [].
Proof.
  apply (@doRequest_unbuildable_request_never_sent
           (double.platform (Ok double.emptyList))
           (New (String.String "127"%char "http://localhost:8080") [])
           context.Background "GET" "/api/projects" None None
           (Err "net/url: invalid control character in URL") World0
           I eq_refl).
Defined.

Lemma configured_timeout_reaches_transport_witness :
  fst (@doRequest (double.platform (Ok double.emptyList))
         (New "http://localhost:8080"
            ([WithTimeout (2 * time.Second)]
             ++ WithTimeout (5 * time.Second) :: [WithAPIKey "secret"]))
         context.Background "GET" "/api/projects" None World0)
  = @http_RoundTrip (double.platform (Ok double.emptyList))
      (http.mkClient 5000000000) []
      (outgoing (New "http://localhost:8080"
                   ([WithTimeout (2 * time.Second)]
                    ++ WithTimeout (5 * time.Second) :: [WithAPIKey "secret"]))
         context.Background "GET" "/api/projects" None).
Proof.
  apply (proj1 (@configured_timeout_reaches_transport
                  (double.platform (Ok double.emptyList))
                  "http://localhost:8080" context.Background
                  "GET" "/api/projects" None None World0)
           [WithTimeout (2 * time.Second)] (5 * time.Second)
           [WithAPIKey "secret"] _ eq_refl).
  - apply List.Forall_cons; [|apply List.Forall_nil].
    exists FieldAPIKey. split; [discriminate | constructor].
  - exact I.
  - reflexivity.
Defined.

Lemma last_key_decides_authorization_witness :
  authorization
    (outgoing (New "http://localhost:8080"
                 ([WithAPIKey "secret"] ++ WithAPIKey EmptyString
                    :: [WithTimeout (5 * time.Second)]))
       context.Background "GET" "/api/projects" None)
  = None.
Proof.
  assert (Hrest : Forall (spares FieldAPIKey) [WithTimeout (5 * time.Second)]).
  { apply List.Forall_cons; [|apply List.Forall_nil].
    exists FieldTimeout. split; [discriminate | constructor]. }
  assert (Hin : outgoing (New "http://localhost:8080"
                            ([WithAPIKey "secret"] ++ WithAPIKey EmptyString
                               :: [WithTimeout (5 * time.Second)]))
                  context.Background "GET" "/api/projects" None
                ∈ sent (@doRequest (double.platform (Ok double.emptyList))
                          (New "http://localhost:8080"
                             ([WithAPIKey "secret"] ++ WithAPIKey EmptyString
                                :: [WithTimeout (5 * time.Second)]))
                          context.Background "GET" "/api/projects" None)
                    World0).
  { apply list_elem_of_here. }
  exact (proj2 (@last_key_decides_authorization
                  (double.platform (Ok double.emptyList))
                  "http://localhost:8080" [WithAPIKey "secret"] EmptyString
                  [WithTimeout (5 * time.Second)]
                  (New "http://localhost:8080"
                     ([WithAPIKey "secret"] ++ WithAPIKey EmptyString
                        :: [WithTimeout (5 * time.Second)]))
                  context.Background "GET" "/api/projects" None World0
                  _ eq_refl Hrest Hin) eq_refl).
Defined.

Lemma client_without_key_sends_no_authorization_witness :
  authorization
    (outgoing (New "http://localhost:8080"
                 [WithWalletAuth (Some double.wallet)])
       context.Background "POST" "/api/projects"
       (Some (list_byte_of_string
                ("{" +:+ double.quote "name" +:+ ":"
                 +:+ double.quote "my-app" +:+ "}"))))
  = None.
Proof.
  apply (@client_without_key_sends_no_authorization
           (double.platform (Ok double.emptyObject))
           "http://localhost:8080" [WithWalletAuth (Some double.wallet)] _
           context.Background "POST" "/api/projects"
           (Some (StringMap (<["name" := "my-app"]> ∅))) World0
           _ eq_refl).
  - apply List.Forall_cons; [|apply List.Forall_nil].
    exists FieldWalletAuth. split; [discriminate | constructor].
  - apply list_elem_of_here.
Defined.

Lemma facade_value_needs_round_trip_witness :
  length (sent (@ProjectsService.List (double.platform (Ok double.emptyList))
                  (Projects (New "http://localhost:8080" []))
                  context.Background) World0)
  = 1%nat.
Proof.
  apply (proj1 (proj2 (proj2
           (@facade_value_needs_round_trip
              (double.platform (Ok double.emptyList))
              (New "http://localhost:8080" []) context.Background World0)))
         []).
  reflexivity.
Defined.

(** C6 on a toy hash: the digest of three artifacts verifies against the
    same artifacts enumerated in another order. *)
Lemma verify_accepts_own_digest_witness :
  @content.verify double.toyProtocol
    (@content.digest double.toyProtocol
       [("style.css", list_byte_of_string "body{}");
        ("index.html", list_byte_of_string "hi");
        ("app.js", [])])
    [("index.html", list_byte_of_string "hi");
     ("style.css", list_byte_of_string "body{}");
     ("app.js", [])]
  = Ok tt.
Proof.
  apply (proj1 (proj2 (@verify_accepts_own_digest double.toyProtocol
                         [("style.css", list_byte_of_string "body{}");
                          ("index.html", list_byte_of_string "hi");
                          ("app.js", [])]))).
  - apply (bool_decide_unpack _). by vm_compute.
  - apply perm_swap.
Defined.

Lemma doRequest_sets_content_type_witness :
  http.Body
    (outgoing (New "http://localhost:8080" [WithAPIKey "secret"])
       context.Background "GET" "/api/projects" None) = None
  /\ http.Header_
       (outgoing (New "http://localhost:8080" [WithAPIKey "secret"])
          context.Background "GET" "/api/projects" None) !! "Content-Type"
     = Some ["application/json"]
  /\ http.Header_
       (outgoing (New "http://localhost:8080" [WithAPIKey "secret"])
          context.Background "GET" "/api/projects" None) !! "Accept"
     = None.
Proof.
  destruct (@doRequest_sets_content_type
              (double.platform (Ok double.emptyList))
              (New "http://localhost:8080" [WithAPIKey "secret"])
              context.Background "GET" "/api/projects" None World0
              (outgoing (New "http://localhost:8080" [WithAPIKey "secret"])
                 context.Background "GET" "/api/projects" None)
              (list_elem_of_here _ _))
    as (_ & Hct & Hother).
  split; [reflexivity|]. split; [exact Hct|].
  apply Hother; discriminate.
Defined.
